(** * The HouseMate mock backend (server.js)

    A shallow embedding of [server.js]: json-server's default
    middlewares, the custom login route, the [/api/v1] rewriter and the
    hand-over to json-server's router.

    The handler is JavaScript, so the embedding carries the fragment of the
    language the handler exercises: JSON data, property reads, strict
    equality, truthiness, [Array.prototype.find], object rest destructuring
    and string concatenation, each with the abrupt completions (thrown
    [TypeError]s) the language gives them. *)

From Stdlib Require Import String Ascii List Bool Arith Lia ZArith.
From Stdlib Require Import DecimalString.
Import ListNotations.
Local Open Scope list_scope.
Local Open Scope string_scope.
Set Warnings "-register-all".

(** ** The JavaScript Number primitive

    [JSON.parse] yields IEEE doubles.  The handler never does arithmetic:
    it compares numbers with [===], tests them for truthiness and converts
    them to strings.  These three operations are the interface; every
    theorem below holds for any implementation of it. *)

Class JsNumber : Type := {
  number : Type;
  number_strict_eq : number -> number -> bool;   (* x === y *)
  number_to_boolean : number -> bool;            (* !!x     *)
  number_to_string : number -> string            (* String(x) *)
}.

(** ** Abrupt completions *)

Inductive js_error : Type :=
| TypeError (msg : string).

Inductive completion (A : Type) : Type :=
| Normal (a : A)
| Throw (e : js_error).
Arguments Normal {A} a.
Arguments Throw {A} e.

Definition bindc {A B} (c : completion A) (k : A -> completion B) : completion B :=
  match c with
  | Normal a => k a
  | Throw e => Throw e
  end.

Section Backend.

Context {Num : JsNumber}.

(** ** JSON data

    Everything in [db.json] and in a parsed request body is a JSON value.
    An object is the list of its own properties, in the order JavaScript
    enumerates them.  Strings are compared, concatenated and, for rest
    destructuring of a string, split into characters; nothing here looks
    inside a character. *)

Inductive json : Type :=
| JNull
| JBool (b : bool)
| JNum (n : number)
| JStr (s : string)
| JArr (items : list json)
| JObj (fields : list (string * json)).

Definition object := list (string * json).

(** A JavaScript value read out of such data: [None] is [undefined],
    which JSON itself cannot contain. *)
Definition jsval := option json.
Definition undefined : jsval := None.

Fixpoint lookup (k : string) (o : object) : jsval :=
  match o with
  | [] => None
  | (k', v) :: rest => if String.eqb k k' then Some v else lookup k rest
  end.

Definition has_key (k : string) (o : object) : bool :=
  match lookup k o with Some _ => true | None => false end.

(** [own_field v k]: the own property [k] of [v], for a name [k] that is
    neither an array index nor [length]. Only objects have such
    properties. *)
Definition own_field (v : json) (k : string) : jsval :=
  match v with
  | JObj fields => lookup k fields
  | _ => undefined
  end.

(** [v.k] for the property names the handler reads ([phone], [password],
    [id]); none of them is defined on a built-in prototype, so the read is
    the own property or [undefined].  Reading a property of [null]
    throws. *)
Definition get_prop (v : json) (k : string) : completion jsval :=
  match v with
  | JNull => Throw (TypeError ("Cannot read properties of null (reading '" ++ k ++ "')"))
  | _ => Normal (own_field v k)
  end.

(** [a === b], where [a] is read from the store and [b] from the request
    body.  The body is parsed afresh for each request, so an object or
    array in it is never the same reference as one in the store. *)
Definition strict_equals (a b : jsval) : bool :=
  match a, b with
  | None, None => true
  | Some JNull, Some JNull => true
  | Some (JBool x), Some (JBool y) => Bool.eqb x y
  | Some (JNum x), Some (JNum y) => number_strict_eq x y
  | Some (JStr x), Some (JStr y) => String.eqb x y
  | _, _ => false
  end.

(** ToBoolean. *)
Definition to_boolean (v : jsval) : bool :=
  match v with
  | None => false
  | Some JNull => false
  | Some (JBool b) => b
  | Some (JNum n) => number_to_boolean n
  | Some (JStr s) => negb (String.eqb s "")
  | Some (JArr _) => true
  | Some (JObj _) => true
  end.

(** ToString, as applied by [+] to its right operand.  A plain object
    prints as [[object Object]] through [Object.prototype.toString]; when
    the object has an own [toString] property (never callable in JSON
    data) the conversion finds no usable method and throws.  An array
    prints as its elements joined by commas, [null] elements as the empty
    string. *)
Fixpoint to_string (v : json) : completion string :=
  match v with
  | JNull => Normal "null"
  | JBool true => Normal "true"
  | JBool false => Normal "false"
  | JNum n => Normal (number_to_string n)
  | JStr s => Normal s
  | JArr items =>
      (fix join (l : list json) : completion string :=
         match l with
         | [] => Normal ""
         | x :: rest =>
             bindc (match x with JNull => Normal "" | _ => to_string x end) (fun s =>
             match rest with
             | [] => Normal s
             | _ => bindc (join rest) (fun r => Normal (s ++ "," ++ r))
             end)
         end) items
  | JObj fields =>
      if has_key "toString" fields
      then Throw (TypeError "Cannot convert object to primitive value")
      else Normal "[object Object]"
  end.

Definition to_string_val (v : jsval) : completion string :=
  match v with
  | None => Normal "undefined"
  | Some j => to_string j
  end.

(** [s + v] with a string on the left. *)
Definition concat (s : string) (v : jsval) : completion string :=
  bindc (to_string_val v) (fun t => Normal (s ++ t)).

(** [arr.find(p)]: the first element, in index order, on which [p] is
    true; [undefined] when there is none.  A throw in [p] ends the
    search. *)
Fixpoint array_find (p : json -> completion bool) (l : list json) : completion jsval :=
  match l with
  | [] => Normal undefined
  | x :: rest =>
      bindc (p x) (fun b => if b then Normal (Some x) else array_find p rest)
  end.

(** [v.find(p)] on an arbitrary value: only arrays have a [find]. *)
Definition call_find (v : jsval) (p : json -> completion bool) : completion jsval :=
  match v with
  | Some (JArr l) => array_find p l
  | None => Throw (TypeError "Cannot read properties of undefined (reading 'find')")
  | Some JNull => Throw (TypeError "Cannot read properties of null (reading 'find')")
  | Some _ => Throw (TypeError "users.find is not a function")
  end.

(** The own enumerable properties of a value, as object rest
    destructuring copies them: an object's fields, an array's elements
    under their indices, a string's characters under theirs, nothing for a
    number or a boolean. *)
Definition index_key (i : nat) : string := NilZero.string_of_uint (Nat.to_uint i).

Fixpoint indexed {A} (f : A -> json) (i : nat) (l : list A) : object :=
  match l with
  | [] => []
  | x :: rest => (index_key i, f x) :: indexed f (S i) rest
  end.

Definition own_enumerable (v : json) : object :=
  match v with
  | JObj fields => fields
  | JArr items => indexed (fun x => x) 0 items
  | JStr s => indexed (fun c => JStr (String c EmptyString)) 0 (list_ascii_of_string s)
  | _ => []
  end.

(** [const { k, ...rest } = v]: the rest object, every own enumerable
    property of [v] except [k], in order. *)
Definition remove_field (k : string) (o : object) : object :=
  filter (fun kv => negb (String.eqb (fst kv) k)) o.

Definition rest_without (k : string) (v : json) : object :=
  remove_field k (own_enumerable v).

(** ** The store and the handlers

    [router.db] is the lowdb instance over [db.json]: one object whose
    top-level keys are the collections.  Handlers run against it; a
    handler yields a result or throws, and leaves a store behind. *)

Definition store := object.

Definition handler (A : Type) : Type := store -> completion A * store.

Definition ret {A} (a : A) : handler A := fun s => (Normal a, s).

Definition bind {A B} (m : handler A) (k : A -> handler B) : handler B :=
  fun s =>
    match m s with
    | (Normal a, s') => k a s'
    | (Throw e, s') => (Throw e, s')
    end.

Definition lift {A} (c : completion A) : handler A := fun s => (c, s).

(** [db.get(key).value()]: the collection under [key], [undefined] when
    the store has none. *)
Definition db_get (key : string) : handler jsval :=
  fun s => (Normal (lookup key s), s).

Notation "x <- m ;; k" := (bind m (fun x => k))
  (at level 61, m at next level, right associativity).

(** ** Requests and responses *)

(** [OtherMethod] carries the name of any further method Node's parser
    accepts; the tests on methods below go by name. *)
Inductive http_method : Type :=
| GET | HEAD | POST | PUT | PATCH | DELETE | OPTIONS
| OtherMethod (name : string).

(** A request as the routes see it, after json-server's default
    middlewares and its body parser have run: the parser always leaves
    [req.body] an object or an array (an empty object when the request has
    no body), given here by its own properties. *)
Record request : Type := {
  req_method : http_method;
  req_url : string;
  req_body : object
}.

Record response : Type := {
  status : nat;
  payload : json
}.

(** [res.json(v)] answers with status 200, [res.status(c).json(v)] with
    status [c]. *)
Definition res_json (v : json) : response := {| status := 200; payload := v |}.
Definition res_status_json (c : nat) (v : json) : response := {| status := c; payload := v |}.

(** ** The login handler, [server.post('/api/v1/auth/login', ...)] *)

(** The callback given to [find]:
    [u => u.phone === phone && u.password === password]. *)
Definition credentials_match (phone password : jsval) (u : json) : completion bool :=
  bindc (get_prop u "phone") (fun p =>
  if strict_equals p phone
  then bindc (get_prop u "password") (fun w => Normal (strict_equals w password))
  else Normal false).

Definition invalid_credentials : response :=
  res_status_json 401 (JObj [("message", JStr "Invalid credentials")]).

Definition login_success (token : string) (user : object) : response :=
  res_json (JObj [("token", JStr token); ("user", JObj user)]).

Definition login_handler (body : object) : handler response :=
  let phone := lookup "phone" body in
  let password := lookup "password" body in
  users <- db_get "users" ;;
  user <- lift (call_find users (credentials_match phone password)) ;;
  match user with
  | Some u =>
      if to_boolean user then
        let userWithoutPassword := rest_without "password" u in
        token <- lift (bindc (get_prop u "id") (concat "mock-jwt-token-")) ;;
        ret (login_success token userWithoutPassword)
      else ret invalid_credentials
  | None => ret invalid_credentials
  end.

(** ** Routing

    Express matches a route path against the pathname of the request
    target, ignoring ASCII case and one trailing slash.  The target
    [req.url] is a string of one-byte characters. *)

Definition lower_ascii (c : ascii) : ascii :=
  let n := nat_of_ascii c in
  if Nat.leb 65 n && Nat.leb n 90 then ascii_of_nat (n + 32) else c.

Fixpoint lower (s : string) : string :=
  match s with
  | EmptyString => EmptyString
  | String c rest => String (lower_ascii c) (lower rest)
  end.

(** The pathname is computed by [parseurl].  It parses a target itself
    when the target starts with [/] and holds no tab, line feed, form
    feed, carriage return, space, [#] or no-break space after that: the
    pathname is then the part before the first [?].  Every other target
    (an absolute URL such as [http://host/path], a target with a
    fragment) goes to Node's [url.parse]. *)
Definition needs_url_parse (c : ascii) : bool :=
  let n := nat_of_ascii c in
  Nat.eqb n 9 || Nat.eqb n 10 || Nat.eqb n 12 || Nat.eqb n 13 ||
  Nat.eqb n 32 || Nat.eqb n 35 || Nat.eqb n 160.

Fixpoint plain (s : string) : bool :=
  match s with
  | EmptyString => true
  | String c rest => negb (needs_url_parse c) && plain rest
  end.

Definition fast_path (url : string) : bool :=
  match url with
  | String "/" rest => plain rest
  | _ => false
  end.

Fixpoint before_query (url : string) : string :=
  match url with
  | EmptyString => EmptyString
  | String c rest =>
      if Ascii.eqb c "?" then EmptyString else String c (before_query rest)
  end.

Definition is_post (m : http_method) : bool :=
  match m with
  | POST => true
  | OtherMethod name => String.eqb name "POST"
  | _ => false
  end.

(** A [get] route also serves [HEAD]. *)
Definition is_get (m : http_method) : bool :=
  match m with
  | GET | HEAD => true
  | OtherMethod name => String.eqb name "GET" || String.eqb name "HEAD"
  | _ => false
  end.

(** [jsonServer.rewriter({ '/api/v1/*': '/$1' })].  The pattern is matched
    against the whole URL, ignoring ASCII case; [*] captures everything
    after the prefix and [$1] puts it back.  A URL the pattern does not
    match is passed on as it is.  The rewriter also answers
    [GET /__rules] with its table of rules. *)
Fixpoint match_prefix (pattern url : string) : option string :=
  match pattern, url with
  | EmptyString, rest => Some rest
  | String p pattern', String c url' =>
      if Ascii.eqb (lower_ascii p) (lower_ascii c) then match_prefix pattern' url' else None
  | String _ _, EmptyString => None
  end.

Definition rewrite_url (url : string) : string :=
  match match_prefix "/api/v1/" url with
  | Some rest => "/" ++ rest
  | None => url
  end.

Definition rewrite (req : request) : request :=
  {| req_method := req_method req;
     req_url := rewrite_url (req_url req);
     req_body := req_body req |}.

Definition rewrite_rules : json := JObj [("/api/v1/*", JStr "/$1")].

(** ** The gateway

    What the whole application answers.  Besides the JSON answers of the
    login handler, the rewriter and the router there are the answers of
    the stages [server.use(middlewares)] puts in front of them, and of
    Express itself when no stage runs. *)

Inductive reply : Type :=
| Json (r : response)      (* [res.json]; the router's rendering *)
| Preflight                (* cors: status 204, no body *)
| Static (name : string)   (* [express.static]: what it serves from the public directory *)
| NoRoute.                 (* Express's final handler: status 404 *)

Definition is_options (m : http_method) : bool :=
  match m with
  | OPTIONS => true
  | OtherMethod name => String.eqb name "OPTIONS"
  | _ => false
  end.

(** Run a JSON handler as a stage of the application. *)
Definition json_stage (h : handler response) : handler reply :=
  fun s =>
    match h s with
    | (Normal r, s') => (Normal (Json r), s')
    | (Throw e, s') => (Throw e, s')
    end.

Section Gateway.

(** The surroundings of [server.js]: Node's [url.parse] (its [pathname],
    [None] when it has none), the public directory [express.static]
    serves (what it sends for a target, if it answers at all), and
    json-server's router over [db.json], the generic resource layer. *)
Variable url_parse : string -> option string.
Variable public_file : string -> option string.
Variable router : request -> handler response.

Definition pathname (url : string) : option string :=
  if fast_path url then Some (before_query url) else url_parse url.

Definition route_matches (route url : string) : bool :=
  match pathname url with
  | Some path =>
      let p := lower path in
      String.eqb p (lower route) || String.eqb p (lower route ++ "/")
  | None => false
  end.

Definition is_login (req : request) : bool :=
  is_post (req_method req) && route_matches "/api/v1/auth/login" (req_url req).

(** The requests the rewriter's own [/__rules] route answers. *)
Definition is_rules (req : request) : bool :=
  is_get (req_method req) && route_matches "/__rules" (req_url req).

(** [server.use(middlewares)], the defaults of json-server.  Two of them
    can answer a request themselves: cors answers every [OPTIONS] request,
    and [express.static] answers a [GET] or [HEAD] request for a file of
    the public directory.  The others (compression, logging, cache
    headers) change neither status nor body. *)
Definition middlewares (req : request) : option reply :=
  if is_options (req_method req) then Some Preflight
  else if is_get (req_method req) then
    match public_file (req_url req) with
    | Some name => Some (Static name)
    | None => None
    end
  else None.

(** The application [server]: Express runs no stage for a target without
    a pathname; otherwise the default middlewares, the login route, the
    rewriter and the router, in the order [server.js] registers them.
    (The body parser of line 7 sits between the middlewares and the login
    route; a [request] already carries the body it parsed.) *)
Definition server (req : request) : handler reply :=
  match pathname (req_url req) with
  | None => ret NoRoute
  | Some _ =>
      match middlewares req with
      | Some answer => ret answer
      | None =>
          if is_login req then json_stage (login_handler (req_body req))
          else if is_rules req then ret (Json (res_json rewrite_rules))
          else json_stage (router (rewrite req))
      end
  end.

End Gateway.

(** ** Reading the handler

    [find_user] is the handler's [users.find(...)] on its own, and
    [login_status] the status code a request is answered with, when the
    handler answers at all. *)

Definition find_user (body : object) (s : store) : completion jsval :=
  call_find (lookup "users" s)
    (credentials_match (lookup "phone" body) (lookup "password" body)).

Definition login_status (body : object) (s : store) : option nat :=
  match fst (login_handler body s) with
  | Normal r => Some (status r)
  | Throw _ => None
  end.

Definition token_prefix : string := "mock-jwt-token-".

(** The handler's ['mock-jwt-token-' + user.id]. *)
Definition make_token (u : json) : completion string :=
  bindc (get_prop u "id") (concat token_prefix).

(** A user the handler can process: not [null], and with an [id] that
    converts to a string. *)
Definition printable (v : jsval) : bool :=
  match to_string_val v with Normal _ => true | Throw _ => false end.

Definition is_null (v : json) : bool :=
  match v with JNull => true | _ => false end.

Definition safe_user (u : json) : bool :=
  negb (is_null u) && printable (own_field u "id").

(** A user record that carries both credentials. *)
Definition has_credentials (u : json) : bool :=
  match own_field u "phone", own_field u "password" with
  | Some _, Some _ => true
  | _, _ => false
  end.

(** *** Statements in the words of the specification *)

(** "Some user record has [phone] and [password] fields exactly equal to
    the body's [phone] and [password]." *)
Definition credentials_equal (u : json) (body : object) : Prop :=
  exists p w,
    own_field u "phone" = Some p /\ lookup "phone" body = Some p /\
    own_field u "password" = Some w /\ lookup "password" body = Some w.

Definition user_records (s : store) : list json :=
  match lookup "users" s with
  | Some (JArr l) => l
  | _ => []
  end.

(** "Login responds 200 iff some user record has the body's credentials;
    otherwise it responds 401." *)
Definition login_iff_credentials (s : store) (body : object) : Prop :=
  (login_status body s = Some 200 <->
   exists u, In u (user_records s) /\ credentials_equal u body) /\
  (~ (exists u, In u (user_records s) /\ credentials_equal u body) ->
   login_status body s = Some 401).

(** "A body missing [phone] or [password] matches no user record and is
    answered 401." *)
Definition missing_field_rejected (s : store) (body : object) : Prop :=
  lookup "phone" body = None \/ lookup "password" body = None ->
  find_user body s = Normal None /\ login_status body s = Some 401.

(** "With [users] bound to an array the handler never throws: it answers
    200 or 401." *)
Definition answers (s : store) (body : object) : Prop :=
  exists r, fst (login_handler body s) = Normal r /\
            (status r = 200 \/ status r = 401).

Definition never_throws_on_array (s : store) (body : object) : Prop :=
  (exists l, lookup "users" s = Some (JArr l)) -> answers s body.

(** *** Further vocabulary *)

(** Arrays and objects: the values [===] compares by reference. *)
Definition is_reference (v : json) : bool :=
  match v with
  | JArr _ | JObj _ => true
  | _ => false
  end.

(** The callback of [find], for a given body. *)
Definition callback (body : object) : json -> completion bool :=
  credentials_match (lookup "phone" body) (lookup "password" body).

(** *** Further statements in the words of the specification *)

(** "No user record matches": no record has the body's credentials. *)
Definition no_record_matches (s : store) (body : object) : Prop :=
  ~ exists u, In u (user_records s) /\ credentials_equal u body.

(** "When no user record matches, the answer is 401 with the body
    [{ "message": "Invalid credentials" }]." *)
Definition no_match_is_rejected (s : store) (body : object) : Prop :=
  no_record_matches s body ->
  fst (login_handler body s) = Normal invalid_credentials.

(** The request with its URL replaced. *)
Definition with_url (req : request) (url : string) : request :=
  {| req_method := req_method req; req_url := url; req_body := req_body req |}.

(** "A non-login request under [/api/v1/] is answered as the router
    answers the same request with the prefix stripped." *)
Definition prefix_is_transparent
    (url_parse public_file : string -> option string)
    (router : request -> handler response) (req : request) : Prop :=
  forall rest,
    is_login url_parse req = false ->
    req_url req = "/api/v1/" ++ rest ->
    server url_parse public_file router req =
    json_stage (router (with_url req ("/" ++ rest))).

(** "Under every method other than POST, a request to
    [/api/v1/auth/login] bypasses the login handler and is answered by
    the router as a request to [/auth/login]." *)
Definition non_post_login_goes_to_router
    (url_parse public_file : string -> option string)
    (router : request -> handler response) (req : request) : Prop :=
  is_post (req_method req) = false ->
  req_url req = "/api/v1/auth/login" ->
  is_login url_parse req = false /\
  server url_parse public_file router req =
  json_stage (router (with_url req "/auth/login")).

End Backend.

(** * Example data

    The examples run the embedding on concrete stores and requests, with
    integer-valued numbers for the Number primitive. *)

Module Examples.

#[export] Instance IntegerNumbers : JsNumber := {|
  number := Z;
  number_strict_eq := Z.eqb;
  number_to_boolean := fun z => negb (Z.eqb z 0);
  number_to_string := fun z => NilZero.string_of_int (Z.to_int z)
|}.

(** The store of the specification's example. *)
Definition user_a : json :=
  JObj [("id", JStr "1"); ("phone", JStr "555-0100");
        ("password", JStr "pw1"); ("name", JStr "A")].

Definition db : store := [("users", JArr [user_a])].

Definition good_body : object := [("phone", JStr "555-0100"); ("password", JStr "pw1")].
Definition bad_body : object := [("phone", JStr "555-0100"); ("password", JStr "wrong")].

Definition good_answer : response :=
  {| status := 200;
     payload := JObj [("token", JStr "mock-jwt-token-1");
                      ("user", JObj [("id", JStr "1"); ("phone", JStr "555-0100");
                                     ("name", JStr "A")])] |}.

(** Two records with the same credentials. *)
Definition user_b : json :=
  JObj [("id", JNum 2%Z); ("phone", JStr "555-0100");
        ("password", JStr "pw1"); ("name", JStr "B")].

Definition db_twins : store :=
  [("bookings", JArr []); ("users", JArr [user_a; user_b])].

(** Records without credentials, a [null] entry, no users at all. *)
Definition db_no_password : store :=
  [("users", JArr [JObj [("id", JStr "1"); ("phone", JStr "555-0100"); ("name", JStr "A")]])].

Definition db_no_credentials : store :=
  [("users", JArr [JObj [("id", JStr "1"); ("name", JStr "A")]])].

Definition db_null_user : store := [("users", JArr [JNull])].

Definition db_empty_users : store := [("users", JArr [])].

Definition phone_only_body : object := [("phone", JStr "555-0100")].
Definition empty_body : object := [].

(** A stand-in for json-server's router: [GET /name] lists the
    collection [name], everything else is a 404. *)
Definition list_router (req : request) : handler response :=
  fun s =>
    match req_method req, req_url req with
    | GET, String "/" name =>
        match lookup name s with
        | Some v => (Normal (res_json v), s)
        | None => (Normal (res_status_json 404 (JObj [])), s)
        end
    | _, _ => (Normal (res_status_json 404 (JObj [])), s)
    end.

(** Stand-ins for the surroundings: a [url.parse] that knows absolute
    URLs on [http://example.com], and the public directory json-server
    ships, with its home page. *)
Definition example_url_parse (url : string) : option string :=
  match match_prefix "http://example.com" url with
  | Some EmptyString => Some "/"
  | Some rest => Some (before_query rest)
  | None => None
  end.

Definition example_public (url : string) : option string :=
  if String.eqb url "/" || String.eqb url "/index.html"
  then Some "index.html" else None.

Definition login_request : request :=
  {| req_method := POST; req_url := "/api/v1/auth/login"; req_body := good_body |}.

Definition list_users_request : request :=
  {| req_method := GET; req_url := "/api/v1/users"; req_body := [] |}.

Definition get_login_request : request :=
  {| req_method := GET; req_url := "/api/v1/auth/login"; req_body := [] |}.

(** Further stores: no [users] collection, [users] bound to an object, a
    [null] after a record, a falsy entry before a record, a record
    without [id]. *)
Definition db_no_users : store := [("bookings", JArr [])].

Definition db_users_object : store := [("users", JObj [("1", user_a)])].

Definition db_null_second : store := [("users", JArr [user_a; JNull])].

Definition db_false_first : store :=
  [("users", JArr [JBool false; JObj [("id", JStr "1"); ("name", JStr "A")]])].

Definition user_no_id : json :=
  JObj [("phone", JStr "555-0100"); ("password", JStr "pw1")].

Definition db_no_id : store := [("users", JArr [user_no_id])].

Definition user_c : json :=
  JObj [("id", JStr "3"); ("phone", JStr "555-0199"); ("password", JStr "pw3")].

Definition db_c_first : store := [("users", JArr [user_c; user_a])].

Definition injection_body : object :=
  [("phone", JStr "555-0100"); ("password", JObj [("$ne", JNull)])].


(** A record whose [id] is an object with a [toString] key, and a store
    where a record with credentials precedes one without. *)
Definition user_odd_id : json :=
  JObj [("id", JObj [("toString", JStr "x")]); ("phone", JStr "555-0100");
        ("password", JStr "pw1")].

Definition db_odd_id : store := [("users", JArr [user_odd_id])].

Definition db_bare_second : store :=
  [("users", JArr [user_a; JObj [("id", JStr "9"); ("name", JStr "Z")]; user_c])].

Definition options_users_request : request :=
  {| req_method := OPTIONS; req_url := "/api/v1/users"; req_body := [] |}.

Definition options_login_request : request :=
  {| req_method := OPTIONS; req_url := "/api/v1/auth/login"; req_body := [] |}.

Definition absolute_login_request : request :=
  {| req_method := POST; req_url := "http://example.com/api/v1/auth/login";
     req_body := good_body |}.

Definition home_page_request : request :=
  {| req_method := GET; req_url := "/"; req_body := [] |}.

(** A record with a password and no phone, and a body to match it. *)
Definition db_no_phone : store :=
  [("users", JArr [JObj [("id", JStr "2"); ("password", JStr "pw1"); ("name", JStr "B")]])].

Definition password_only_body : object := [("password", JStr "pw1")].

End Examples.

(** * Properties *)

Section Properties.

Context {Num : JsNumber}.

(** ** Properties of the language fragment *)

Lemma lookup_remove_field_same (k : string) (o : object) :
  lookup k (remove_field k o) = None.
Proof.
  unfold remove_field.
  induction o as [|[k' v] o IH]; simpl; [reflexivity|].
  destruct (String.eqb k' k) eqn:E; simpl; [exact IH|].
  rewrite String.eqb_sym, E. exact IH.
Qed.

Lemma lookup_remove_field_other (k k' : string) (o : object) :
  k' <> k -> lookup k' (remove_field k o) = lookup k' o.
Proof.
  intros Hne. unfold remove_field.
  induction o as [|[k0 v] o IH]; simpl; [reflexivity|].
  destruct (String.eqb k0 k) eqn:E; simpl.
  - apply String.eqb_eq in E; subst k0.
    apply String.eqb_neq in Hne. rewrite Hne. exact IH.
  - rewrite IH. reflexivity.
Qed.

Lemma get_prop_not_null (u : json) (k : string) :
  is_null u = false -> get_prop u k = Normal (own_field u k).
Proof. destruct u; simpl; intros H; [discriminate| reflexivity ..]. Qed.

Lemma truthy_not_null (u : json) :
  to_boolean (Some u) = true -> is_null u = false.
Proof. destruct u; simpl; intros H; [discriminate| reflexivity ..]. Qed.

Lemma own_field_some_object (u : json) (k : string) (v : json) :
  own_field u k = Some v -> exists fields, u = JObj fields.
Proof. destruct u; simpl; intros H; try discriminate. eexists; reflexivity. Qed.

(** The callback never throws on a user that is not [null]. *)
Lemma credentials_match_total (phone password : jsval) (u : json) :
  is_null u = false ->
  credentials_match phone password u =
  Normal (strict_equals (own_field u "phone") phone &&
          strict_equals (own_field u "password") password).
Proof.
  intros Hu. unfold credentials_match.
  rewrite !get_prop_not_null by exact Hu. simpl.
  destruct (strict_equals (own_field u "phone") phone); reflexivity.
Qed.

Lemma credentials_match_true (phone password : jsval) (u : json) :
  credentials_match phone password u = Normal true ->
  is_null u = false /\
  strict_equals (own_field u "phone") phone = true /\
  strict_equals (own_field u "password") password = true.
Proof.
  intros H. destruct (is_null u) eqn:Hu.
  - destruct u; discriminate.
  - rewrite credentials_match_total in H by exact Hu.
    injection H as H. apply andb_true_iff in H. tauto.
Qed.

Lemma strict_equals_string (a : jsval) (s : string) :
  strict_equals a (Some (JStr s)) = true <-> a = Some (JStr s).
Proof.
  split.
  - destruct a as [[]|]; simpl; try discriminate.
    intros H. apply String.eqb_eq in H. now subst.
  - intros ->. simpl. apply String.eqb_refl.
Qed.

Lemma strict_equals_undefined (a : jsval) :
  strict_equals a None = true <-> a = None.
Proof.
  split.
  - destruct a as [[]|]; simpl; try discriminate. reflexivity.
  - intros ->. reflexivity.
Qed.

(** *** [find] returns the first match *)

Lemma array_find_none (p : json -> completion bool) (l : list json) :
  array_find p l = Normal None <-> forall x, In x l -> p x = Normal false.
Proof.
  induction l as [|a l IH]; simpl.
  - split; [intros _ x []| reflexivity].
  - destruct (p a) as [[]|e] eqn:E; simpl.
    + split; [discriminate|]. intros H. specialize (H a (or_introl eq_refl)). congruence.
    + rewrite IH. split.
      * intros H x [<-|Hin]; auto.
      * intros H x Hin. apply H. now right.
    + split; [discriminate|]. intros H. specialize (H a (or_introl eq_refl)). congruence.
Qed.

Lemma array_find_some (p : json -> completion bool) (l : list json) (u : json) :
  array_find p l = Normal (Some u) <->
  exists before after,
    l = (before ++ u :: after)%list /\
    (forall x, In x before -> p x = Normal false) /\
    p u = Normal true.
Proof.
  induction l as [|a l IH]; simpl.
  - split; [discriminate|]. intros (b & t & H & _). destruct b; discriminate.
  - destruct (p a) as [[]|e] eqn:E; simpl.
    + split.
      * intros H. injection H as <-. exists [], l. repeat split; [intros x []| exact E].
      * intros (b & t & H & Hb & Hu). destruct b as [|b0 b]; simpl in H.
        -- now injection H as -> _.
        -- injection H as -> _. specialize (Hb b0 (or_introl eq_refl)). congruence.
    + rewrite IH. split.
      * intros (b & t & -> & Hb & Hu). exists (a :: b), t. repeat split; [|exact Hu].
        intros x [<-|Hin]; auto.
      * intros (b & t & H & Hb & Hu). destruct b as [|b0 b]; simpl in H.
        -- injection H as -> _. congruence.
        -- injection H as -> ->. exists b, t. repeat split; [|exact Hu].
           intros x Hin. apply Hb. now right.
    + split; [discriminate|].
      intros (b & t & H & Hb & Hu). destruct b as [|b0 b]; simpl in H.
      * injection H as -> _. congruence.
      * injection H as -> _. specialize (Hb b0 (or_introl eq_refl)). congruence.
Qed.

Lemma array_find_total (p : json -> completion bool) (l : list json) :
  (forall x, In x l -> exists b, p x = Normal b) ->
  exists v, array_find p l = Normal v.
Proof.
  induction l as [|a l IH]; simpl; intros H.
  - eexists; reflexivity.
  - destruct (H a (or_introl eq_refl)) as [b ->]. simpl. destruct b.
    + eexists; reflexivity.
    + apply IH. intros x Hin. apply H. now right.
Qed.

(** ** The handler, case by case *)

Lemma login_handler_cases (body : object) (s : store) :
  login_handler body s =
  (match find_user body s with
   | Throw e => Throw e
   | Normal None => Normal invalid_credentials
   | Normal (Some u) =>
       if to_boolean (Some u)
       then bindc (make_token u) (fun token =>
              Normal (login_success token (rest_without "password" u)))
       else Normal invalid_credentials
   end, s).
Proof.
  unfold login_handler, find_user, make_token, token_prefix, bind, db_get, lift, ret.
  destruct (call_find _ _) as [[u|]|e]; try reflexivity.
  destruct (to_boolean (Some u)); try reflexivity.
  destruct (bindc _ _); reflexivity.
Qed.

Lemma make_token_truthy (u : json) :
  to_boolean (Some u) = true ->
  make_token u =
  bindc (to_string_val (own_field u "id")) (fun t => Normal (token_prefix ++ t)).
Proof.
  intros H. unfold make_token.
  rewrite get_prop_not_null by (apply truthy_not_null; exact H).
  reflexivity.
Qed.

(** A 200 answer comes from the success branch, with the user [find]
    returned. *)
Lemma login_200_inv (body : object) (s : store) (r : response) :
  fst (login_handler body s) = Normal r -> status r = 200 ->
  exists u t,
    find_user body s = Normal (Some u) /\
    to_boolean (Some u) = true /\
    to_string_val (own_field u "id") = Normal t /\
    r = login_success (token_prefix ++ t) (rest_without "password" u).
Proof.
  rewrite login_handler_cases. cbn [fst].
  destruct (find_user body s) as [[u|]|e].
  - destruct (to_boolean (Some u)) eqn:Hb.
    + rewrite make_token_truthy by exact Hb.
      destruct (to_string_val (own_field u "id")) as [t|e] eqn:Ht; cbn [bindc];
        intros H H200; [|discriminate].
      injection H as <-. exists u, t. auto.
    + intros H H200. injection H as <-. discriminate.
  - intros H H200. injection H as <-. discriminate.
  - discriminate.
Qed.

Lemma find_user_in_records (body : object) (s : store) (u : json) :
  find_user body s = Normal (Some u) ->
  In u (user_records s) /\
  credentials_match (lookup "phone" body) (lookup "password" body) u = Normal true.
Proof.
  unfold find_user, user_records, call_find.
  destruct (lookup "users" s) as [[]|]; try discriminate.
  intros H. apply array_find_some in H as (b & t & -> & _ & Hu).
  split; [|exact Hu]. apply in_or_app. right. now left.
Qed.

Lemma login_handler_readonly (body : object) (s : store) :
  snd (login_handler body s) = s.
Proof. rewrite login_handler_cases. reflexivity. Qed.

(** ** The login route *)

(** C2. The [user] object of a 200 answer is the record [find] returned
    with its [password] property removed: it has no [password] property,
    and every other property reads as it does on the stored record. *)
Theorem login_user_is_record_without_password
    (body : object) (s : store) (r : response) :
  fst (login_handler body s) = Normal r -> status r = 200 ->
  exists u user,
    In u (user_records s) /\
    find_user body s = Normal (Some u) /\
    own_field (payload r) "user" = Some (JObj user) /\
    user = remove_field "password" (own_enumerable u) /\
    lookup "password" user = None /\
    forall k, k <> "password" -> lookup k user = lookup k (own_enumerable u).
Proof.
  intros H H200.
  destruct (login_200_inv body s r H H200) as (u & t & Hfind & _ & _ & ->).
  exists u, (remove_field "password" (own_enumerable u)).
  split; [apply (find_user_in_records body s u Hfind)|].
  split; [exact Hfind|].
  split; [reflexivity|].
  split; [reflexivity|].
  split; [apply lookup_remove_field_same|].
  intros k Hk. apply lookup_remove_field_other. exact Hk.
Qed.

(** C3. The [token] of a 200 answer is ["mock-jwt-token-"] followed by
    the matched user's [id] (the [id] itself when it is a string, its
    string conversion otherwise), and the answer is determined by the
    [users] collection and the body's [phone] and [password] alone. *)
Theorem login_token_is_prefix_and_id
    (body : object) (s : store) (r : response) :
  fst (login_handler body s) = Normal r -> status r = 200 ->
  (exists u t,
     find_user body s = Normal (Some u) /\
     to_string_val (own_field u "id") = Normal t /\
     (forall i, own_field u "id" = Some (JStr i) -> t = i) /\
     own_field (payload r) "token" = Some (JStr ("mock-jwt-token-" ++ t))) /\
  (forall body' s',
     lookup "users" s' = lookup "users" s ->
     lookup "phone" body' = lookup "phone" body ->
     lookup "password" body' = lookup "password" body ->
     fst (login_handler body' s') = Normal r).
Proof.
  intros H H200. split.
  - destruct (login_200_inv body s r H H200) as (u & t & Hfind & _ & Ht & ->).
    exists u, t. repeat split; try assumption.
    intros i Hi. rewrite Hi in Ht. simpl in Ht. congruence.
  - intros body' s' Hs Hp Hw. rewrite <- H.
    rewrite !login_handler_cases. cbn [fst].
    unfold find_user. rewrite Hs, Hp, Hw. reflexivity.
Qed.

(** When [users] is an array and the callback is false on every
    element, the answer is 401 with the body
    [{ "message": "Invalid credentials" }]. *)
Lemma login_no_match_is_401
    (body : object) (s : store) (l : list json) :
  lookup "users" s = Some (JArr l) ->
  (forall u, In u l ->
     credentials_match (lookup "phone" body) (lookup "password" body) u = Normal false) ->
  login_handler body s =
  (Normal {| status := 401;
             payload := JObj [("message", JStr "Invalid credentials")] |}, s).
Proof.
  intros Hl Hnone. rewrite login_handler_cases.
  unfold find_user. rewrite Hl. simpl.
  apply array_find_none in Hnone. rewrite Hnone. reflexivity.
Qed.

(** C8. When several records match, the answer is built from the first
    of them in array order: whatever follows it in the array, the token
    carries its [id] and the [user] object its fields. *)
Theorem login_first_match_wins
    (body : object) (s : store) (before after : list json)
    (fields : object) (t : string) :
  lookup "users" s = Some (JArr (before ++ JObj fields :: after)%list) ->
  (forall x, In x before ->
     credentials_match (lookup "phone" body) (lookup "password" body) x = Normal false) ->
  credentials_match (lookup "phone" body) (lookup "password" body) (JObj fields) = Normal true ->
  to_string_val (lookup "id" fields) = Normal t ->
  fst (login_handler body s) =
  Normal {| status := 200;
            payload := JObj [("token", JStr ("mock-jwt-token-" ++ t));
                             ("user", JObj (remove_field "password" fields))] |}.
Proof.
  intros Hl Hbefore Hu Ht. rewrite login_handler_cases. cbn [fst].
  assert (Hfind : find_user body s = Normal (Some (JObj fields))).
  { unfold find_user. rewrite Hl. simpl. apply array_find_some.
    exists before, after. auto. }
  rewrite Hfind. cbn [to_boolean].
  rewrite make_token_truthy by reflexivity.
  cbn [own_field]. rewrite Ht. reflexivity.
Qed.

(** *** Which requests are answered, and how *)

Lemma safe_users_total (phone password : jsval) (l : list json) :
  forallb safe_user l = true ->
  exists v, array_find (credentials_match phone password) l = Normal v.
Proof.
  intros Hsafe. apply array_find_total. intros x Hin.
  rewrite forallb_forall in Hsafe. specialize (Hsafe x Hin).
  apply andb_true_iff in Hsafe as [Hnull _]. apply negb_true_iff in Hnull.
  rewrite credentials_match_total by exact Hnull. eexists; reflexivity.
Qed.

Lemma login_status_found (body : object) (s : store) (u : json) :
  find_user body s = Normal (Some u) ->
  to_boolean (Some u) = true ->
  printable (own_field u "id") = true ->
  login_status body s = Some 200.
Proof.
  intros Hfind Hb Hid. unfold login_status.
  rewrite login_handler_cases. cbn [fst]. rewrite Hfind, Hb.
  rewrite make_token_truthy by exact Hb.
  unfold printable in Hid.
  destruct (to_string_val (own_field u "id")); [reflexivity|discriminate].
Qed.

Lemma login_status_not_found (body : object) (s : store) :
  find_user body s = Normal None -> login_status body s = Some 401.
Proof.
  intros Hfind. unfold login_status.
  rewrite login_handler_cases. cbn [fst]. rewrite Hfind. reflexivity.
Qed.

Lemma credentials_equal_match (body : object) (p w : string) (u : json) :
  lookup "phone" body = Some (JStr p) ->
  lookup "password" body = Some (JStr w) ->
  (credentials_equal u body <->
   credentials_match (lookup "phone" body) (lookup "password" body) u = Normal true).
Proof.
  intros Hp Hw. rewrite Hp, Hw. split.
  - intros (p' & w' & Hup & Hbp & Huw & Hbw).
    rewrite Hp in Hbp. rewrite Hw in Hbw.
    injection Hbp as <-. injection Hbw as <-.
    destruct (own_field_some_object _ _ _ Hup) as [fields ->].
    rewrite credentials_match_total by reflexivity.
    rewrite Hup, Huw. simpl. now rewrite !String.eqb_refl.
  - intros H. apply credentials_match_true in H as (_ & Hup & Huw).
    apply strict_equals_string in Hup, Huw.
    exists (JStr p), (JStr w). auto.
Qed.

(** C1, amended. On a store whose [users] collection is an array of
    users that are not [null] and whose [id]s convert to strings, and for a
    body whose [phone] and [password] are both strings, login answers 200
    exactly when some user record has these two strings as its [phone] and
    [password], and 401 otherwise. *)
Theorem login_200_iff_string_credentials
    (body : object) (s : store) (l : list json) (p w : string) :
  lookup "users" s = Some (JArr l) ->
  forallb safe_user l = true ->
  lookup "phone" body = Some (JStr p) ->
  lookup "password" body = Some (JStr w) ->
  login_iff_credentials s body.
Proof.
  intros Hl Hsafe Hp Hw.
  assert (Hrec : user_records s = l) by (unfold user_records; now rewrite Hl).
  assert (Hfu : find_user body s =
                array_find (credentials_match (lookup "phone" body) (lookup "password" body)) l)
    by (unfold find_user; now rewrite Hl).
  destruct (safe_users_total (lookup "phone" body) (lookup "password" body) l Hsafe)
    as [[u|] Hfind]; rewrite <- Hfu in Hfind.
  - (* a user is found *)
    destruct (find_user_in_records body s u Hfind) as [Hin Hmatch].
    assert (Heq : credentials_equal u body)
      by (apply (credentials_equal_match body p w u Hp Hw); exact Hmatch).
    assert (H200 : login_status body s = Some 200).
    { destruct Heq as (p' & _ & Hup & _).
      destruct (own_field_some_object _ _ _ Hup) as [fields ->].
      apply (login_status_found body s (JObj fields) Hfind); [reflexivity|].
      rewrite Hrec in Hin. rewrite forallb_forall in Hsafe.
      specialize (Hsafe _ Hin). apply andb_true_iff in Hsafe. tauto. }
    unfold login_iff_credentials. split.
    + split; [intros _; exists u; auto | intros _; exact H200].
    + intros Hno. exfalso. apply Hno. exists u. auto.
  - (* no user is found *)
    assert (H401 : login_status body s = Some 401)
      by (apply login_status_not_found; exact Hfind).
    assert (Hno : ~ exists u, In u (user_records s) /\ credentials_equal u body).
    { intros (u & Hin & Heq). rewrite Hfu in Hfind.
      rewrite array_find_none in Hfind. rewrite Hrec in Hin.
      apply (credentials_equal_match body p w u Hp Hw) in Heq.
      rewrite (Hfind u Hin) in Heq. discriminate. }
    unfold login_iff_credentials. split.
    + split; [intros H; rewrite H401 in H; discriminate | intros H; contradiction].
    + intros _. exact H401.
Qed.

(** C5, amended. When every user record carries both a [phone] and a
    [password] field, a body that lacks [phone] or [password] matches no
    record and is answered 401. *)
Theorem login_missing_field_is_401
    (body : object) (s : store) (l : list json) :
  lookup "users" s = Some (JArr l) ->
  forallb has_credentials l = true ->
  lookup "phone" body = None \/ lookup "password" body = None ->
  find_user body s = Normal None /\ login_status body s = Some 401.
Proof.
  intros Hl Hcred Hmissing.
  assert (Hfind : find_user body s = Normal None).
  { unfold find_user. rewrite Hl. simpl. apply array_find_none.
    intros u Hin. rewrite forallb_forall in Hcred. specialize (Hcred u Hin).
    unfold has_credentials in Hcred.
    destruct (own_field u "phone") as [up|] eqn:Hup; [|discriminate].
    destruct (own_field u "password") as [uw|] eqn:Huw; [|discriminate].
    destruct (own_field_some_object _ _ _ Hup) as [fields ->].
    rewrite credentials_match_total by reflexivity. rewrite Hup, Huw.
    destruct Hmissing as [-> | ->].
    - destruct up; reflexivity.
    - destruct uw; simpl; rewrite ?andb_false_r; reflexivity. }
  split; [exact Hfind | apply login_status_not_found; exact Hfind].
Qed.

(** C9, amended. With [users] bound to an array whose elements are not
    [null] and have [id]s that convert to strings, the handler does not
    throw: every request is answered 200 or 401, and on an empty array
    the answer is 401. *)
Theorem login_answers_on_safe_users
    (body : object) (s : store) (l : list json) :
  lookup "users" s = Some (JArr l) ->
  forallb safe_user l = true ->
  answers s body /\ (l = [] -> login_status body s = Some 401).
Proof.
  intros Hl Hsafe.
  assert (Hfu : find_user body s =
                array_find (credentials_match (lookup "phone" body) (lookup "password" body)) l)
    by (unfold find_user; now rewrite Hl).
  split.
  - unfold answers. rewrite login_handler_cases. cbn [fst].
    destruct (safe_users_total (lookup "phone" body) (lookup "password" body) l Hsafe)
      as [[u|] Hfind]; rewrite <- Hfu in Hfind; rewrite Hfind.
    + destruct (to_boolean (Some u)) eqn:Hb.
      * rewrite make_token_truthy by exact Hb.
        assert (Hin : In u l).
        { apply find_user_in_records in Hfind as [Hin _].
          unfold user_records in Hin. now rewrite Hl in Hin. }
        rewrite forallb_forall in Hsafe. specialize (Hsafe u Hin).
        apply andb_true_iff in Hsafe as [_ Hid]. unfold printable in Hid.
        destruct (to_string_val (own_field u "id")) as [t|]; [|discriminate].
        eexists. split; [reflexivity|]. left. reflexivity.
      * eexists. split; [reflexivity|]. right. reflexivity.
    + eexists. split; [reflexivity|]. right. reflexivity.
  - intros ->. apply login_status_not_found. rewrite Hfu. reflexivity.
Qed.

(** ** The gateway *)

(** C4, amended. On a [users] array without [null] entries, and for a
    body whose [phone] and [password] are both strings, a request that no
    user record matches is answered 401 with the body
    [{ "message": "Invalid credentials" }], and the store is left as it
    was. *)
Theorem login_401_when_no_record_matches
    (body : object) (s : store) (l : list json) (p w : string) :
  lookup "users" s = Some (JArr l) ->
  forallb (fun u => negb (is_null u)) l = true ->
  lookup "phone" body = Some (JStr p) ->
  lookup "password" body = Some (JStr w) ->
  no_record_matches s body ->
  login_handler body s =
  (Normal {| status := 401;
             payload := JObj [("message", JStr "Invalid credentials")] |}, s).
Proof.
  intros Hl Hnonnull Hp Hw Hno.
  apply (login_no_match_is_401 body s l Hl).
  intros u Hin. rewrite forallb_forall in Hnonnull.
  specialize (Hnonnull u Hin). apply negb_true_iff in Hnonnull.
  rewrite credentials_match_total by exact Hnonnull.
  destruct (strict_equals (own_field u "phone") (lookup "phone" body) &&
            strict_equals (own_field u "password") (lookup "password" body)) eqn:E;
    [|reflexivity].
  exfalso. apply Hno. exists u. split.
  - unfold user_records. rewrite Hl. exact Hin.
  - apply (credentials_equal_match body p w u Hp Hw).
    rewrite credentials_match_total by exact Hnonnull. now rewrite E.
Qed.

Section GatewayProperties.

Variable url_parse : string -> option string.
Variable public_file : string -> option string.
Variable router : request -> handler response.

Lemma post_passes_middlewares (req : request) :
  is_post (req_method req) = true -> middlewares public_file req = None.
Proof.
  unfold middlewares. destruct (req_method req) as [| | | | | | |name];
    try discriminate; try reflexivity.
  cbn. intros H. apply String.eqb_eq in H. subst name. reflexivity.
Qed.

Lemma is_login_post (req : request) :
  is_login url_parse req = true ->
  is_post (req_method req) = true /\
  exists path, pathname url_parse (req_url req) = Some path.
Proof.
  unfold is_login, route_matches. intros H. apply andb_true_iff in H as [Hm Hr].
  split; [exact Hm|].
  destruct (pathname url_parse (req_url req)) as [path|]; [|discriminate].
  eexists; reflexivity.
Qed.

Lemma json_stage_store (h : handler response) (s : store) :
  snd (json_stage h s) = snd (h s).
Proof. unfold json_stage. destruct (h s) as [[r|e] s']; reflexivity. Qed.

(** C7. A login request leaves the store as it found it, whether it is
    answered 200, answered 401, or ends in a throw. *)
Theorem login_request_leaves_store (req : request) (s : store) :
  is_login url_parse req = true ->
  snd (server url_parse public_file router req s) = s.
Proof.
  intros Hlogin.
  destruct (is_login_post req Hlogin) as [Hpost [path Hpath]].
  unfold server. rewrite Hpath, (post_passes_middlewares req Hpost), Hlogin.
  rewrite json_stage_store. apply login_handler_readonly.
Qed.

Lemma rewrite_url_prefix (rest : string) :
  rewrite_url ("/api/v1/" ++ rest) = "/" ++ rest.
Proof. reflexivity. Qed.

Lemma pathname_under_prefix (rest : string) :
  fast_path ("/api/v1/" ++ rest) = true ->
  pathname url_parse ("/api/v1/" ++ rest) = Some ("/api/v1/" ++ before_query rest).
Proof. intros Hfast. unfold pathname. rewrite Hfast. reflexivity. Qed.

Lemma rules_route_not_under_prefix (rest : string) :
  fast_path ("/api/v1/" ++ rest) = true ->
  route_matches url_parse "/__rules" ("/api/v1/" ++ rest) = false.
Proof.
  intros Hfast. unfold route_matches.
  rewrite (pathname_under_prefix rest Hfast). reflexivity.
Qed.

(** C6, amended. A request under [/api/v1/] that is not a login request,
    that the default middlewares pass on (its method is not [OPTIONS], and
    under [GET] or [HEAD] the public directory holds no file for it) and
    whose URL Express parses itself (no [#], no white space) is answered by
    the router exactly as the router answers the same request with the
    prefix stripped: same answer, same store afterwards. *)
Theorem prefix_rewrite_is_transparent (req : request) (rest : string) :
  is_login url_parse req = false ->
  req_url req = "/api/v1/" ++ rest ->
  fast_path (req_url req) = true ->
  middlewares public_file req = None ->
  server url_parse public_file router req =
  json_stage (router (with_url req ("/" ++ rest))).
Proof.
  intros Hlogin Hurl Hfast Hpass. unfold server, is_rules.
  rewrite Hpass, Hlogin. rewrite Hurl in Hfast |- *.
  rewrite (pathname_under_prefix rest Hfast).
  rewrite (rules_route_not_under_prefix rest Hfast), andb_false_r.
  unfold rewrite, with_url. rewrite Hurl, rewrite_url_prefix. reflexivity.
Qed.

(** C10, amended. Only [POST] reaches the login handler: under any other
    method a request to [/api/v1/auth/login] is not a login request, and
    when the default middlewares pass it on (its method is not [OPTIONS],
    and under [GET] or [HEAD] the public directory holds no file for it)
    the router answers it as a request to [/auth/login]. *)
Theorem login_route_is_post_only (req : request) :
  is_post (req_method req) = false ->
  req_url req = "/api/v1/auth/login" ->
  middlewares public_file req = None ->
  is_login url_parse req = false /\
  server url_parse public_file router req =
  json_stage (router (with_url req "/auth/login")).
Proof.
  intros Hmethod Hurl Hpass.
  assert (Hlogin : is_login url_parse req = false).
  { unfold is_login. rewrite Hmethod. reflexivity. }
  split; [exact Hlogin|].
  unfold server, is_rules. rewrite Hpass, Hlogin.
  unfold rewrite, with_url, route_matches. rewrite Hurl. cbn.
  rewrite andb_false_r. reflexivity.
Qed.

End GatewayProperties.

(** * Further properties of the login route *)

(** ** [find] over a growing array *)

Lemma array_find_skip (p : json -> completion bool) (before l : list json) :
  (forall x, In x before -> p x = Normal false) ->
  array_find p (before ++ l)%list = array_find p l.
Proof.
  induction before as [|a before IH]; simpl; intros H; [reflexivity|].
  rewrite (H a (or_introl eq_refl)). simpl.
  apply IH. intros x Hin. apply H. now right.
Qed.

Lemma array_find_found_app (p : json -> completion bool) (l after : list json) (u : json) :
  array_find p l = Normal (Some u) ->
  array_find p (l ++ after)%list = Normal (Some u).
Proof.
  intros H. apply array_find_some in H as (b & t & -> & Hb & Hu).
  rewrite <- app_assoc. simpl. apply array_find_some.
  exists b, (t ++ after)%list. auto.
Qed.

Lemma find_user_on_array (body : object) (s : store) (l : list json) :
  lookup "users" s = Some (JArr l) ->
  find_user body s = array_find (callback body) l.
Proof. intros Hl. unfold find_user, callback. now rewrite Hl. Qed.

Lemma remove_field_absent (k : string) (o : object) :
  lookup k o = None -> remove_field k o = o.
Proof.
  unfold remove_field.
  induction o as [|[k' v] o IH]; simpl; [reflexivity|].
  destruct (String.eqb k k') eqn:E; [discriminate|].
  intros H. rewrite String.eqb_sym, E. simpl. now rewrite IH.
Qed.

Lemma strict_equals_reference (a : jsval) (v : json) :
  is_reference v = true -> strict_equals a (Some v) = false.
Proof. destruct a as [[]|], v; simpl; intros H; try discriminate; reflexivity. Qed.

(** ** Stores the handler cannot read *)

(** X1. Without a [users] array in the store (no [users] key, or
    [users] bound to anything but an array) every login request ends in a
    [TypeError], and the store is left as it was. *)
Theorem login_throws_without_users_array (body : object) (s : store) :
  (forall l, lookup "users" s <> Some (JArr l)) ->
  exists msg, login_handler body s = (Throw (TypeError msg), s).
Proof.
  intros Hno. rewrite login_handler_cases. unfold find_user, call_find.
  destruct (lookup "users" s) as [[]|]; try (eexists; reflexivity).
  exfalso. eapply Hno. reflexivity.
Qed.

(** X2. A [null] entry that the search reaches makes the handler throw:
    when no entry before it matches, reading [phone] off it is a
    [TypeError], whatever follows it in the array. *)
Theorem login_throws_on_null_before_match
    (body : object) (s : store) (before after : list json) :
  lookup "users" s = Some (JArr (before ++ JNull :: after)%list) ->
  (forall x, In x before -> callback body x = Normal false) ->
  login_handler body s =
  (Throw (TypeError "Cannot read properties of null (reading 'phone')"), s).
Proof.
  intros Hl Hbefore. rewrite login_handler_cases.
  rewrite (find_user_on_array body s _ Hl).
  rewrite array_find_skip by exact Hbefore. reflexivity.
Qed.

(** ** What an answer can be *)

(** X3. Whatever the store and the body, an answer of the handler is
    either the fixed 401 answer or a 200 answer whose token and user object
    come from one entry of [users]; no other status or body is ever
    sent. *)
Theorem login_answers_only_200_or_401
    (body : object) (s : store) (r : response) :
  fst (login_handler body s) = Normal r ->
  r = invalid_credentials \/
  exists u t,
    In u (user_records s) /\
    to_string_val (own_field u "id") = Normal t /\
    r = {| status := 200;
           payload := JObj [("token", JStr ("mock-jwt-token-" ++ t));
                            ("user", JObj (rest_without "password" u))] |}.
Proof.
  intros H. destruct (Nat.eq_dec (status r) 200) as [H200|Hother].
  - right. destruct (login_200_inv body s r H H200) as (u & t & Hfind & _ & Ht & ->).
    exists u, t. split; [apply (find_user_in_records body s u Hfind)|]. auto.
  - left. revert H. rewrite login_handler_cases. cbn [fst].
    destruct (find_user body s) as [[u|]|e]; try congruence.
    destruct (to_boolean (Some u)) eqn:Hb; try congruence.
    rewrite make_token_truthy by exact Hb.
    destruct (to_string_val (own_field u "id")); cbn [bindc]; [|discriminate].
    intros H. injection H as <-. exfalso. apply Hother. reflexivity.
Qed.

(** X4. A 200 answer to a body with string credentials is sound, on any
    store: the user object comes from an object record of [users] whose
    [phone] and [password] are exactly the body's two strings. *)
Theorem login_200_is_sound
    (body : object) (s : store) (r : response) (p w : string) :
  fst (login_handler body s) = Normal r -> status r = 200 ->
  lookup "phone" body = Some (JStr p) ->
  lookup "password" body = Some (JStr w) ->
  exists fields,
    In (JObj fields) (user_records s) /\
    lookup "phone" fields = Some (JStr p) /\
    lookup "password" fields = Some (JStr w) /\
    own_field (payload r) "user" = Some (JObj (remove_field "password" fields)).
Proof.
  intros H H200 Hp Hw.
  destruct (login_200_inv body s r H H200) as (u & t & Hfind & _ & _ & ->).
  destruct (find_user_in_records body s u Hfind) as [Hin Hmatch].
  rewrite Hp, Hw in Hmatch.
  apply credentials_match_true in Hmatch as (_ & Hup & Huw).
  apply strict_equals_string in Hup, Huw.
  destruct (own_field_some_object _ _ _ Hup) as [fields ->].
  exists fields. auto.
Qed.

(** X5. A credential sent as an object or an array matches nothing:
    on a [users] array without [null] entries the answer is the 401
    answer, whatever the records hold. *)
Theorem login_rejects_reference_credentials
    (body : object) (s : store) (l : list json) (v : json) :
  lookup "users" s = Some (JArr l) ->
  forallb (fun u => negb (is_null u)) l = true ->
  lookup "phone" body = Some v \/ lookup "password" body = Some v ->
  is_reference v = true ->
  login_handler body s = (Normal invalid_credentials, s).
Proof.
  intros Hl Hnonnull Hv Href. rewrite login_handler_cases.
  rewrite (find_user_on_array body s l Hl).
  assert (Hnone : array_find (callback body) l = Normal None).
  { apply array_find_none. intros u Hin.
    rewrite forallb_forall in Hnonnull. specialize (Hnonnull u Hin).
    apply negb_true_iff in Hnonnull.
    unfold callback. rewrite credentials_match_total by exact Hnonnull.
    destruct Hv as [-> | ->]; rewrite strict_equals_reference by exact Href;
      rewrite ?andb_false_r; reflexivity. }
  rewrite Hnone. reflexivity.
Qed.

(** X6. The truthiness test after [find] decides on the entry [find]
    returned: when the first entry the callback accepts is falsy
    ([false], [0], the empty string), the answer is the 401 answer, even
    if a later entry would match. *)
Theorem login_falsy_match_is_401
    (body : object) (s : store) (before after : list json) (u : json) :
  lookup "users" s = Some (JArr (before ++ u :: after)%list) ->
  (forall x, In x before -> callback body x = Normal false) ->
  callback body u = Normal true ->
  to_boolean (Some u) = false ->
  login_handler body s = (Normal invalid_credentials, s).
Proof.
  intros Hl Hbefore Hu Hfalsy. rewrite login_handler_cases.
  assert (Hfind : find_user body s = Normal (Some u)).
  { rewrite (find_user_on_array body s _ Hl). apply array_find_some.
    exists before, after. auto. }
  rewrite Hfind, Hfalsy. reflexivity.
Qed.

(** ** Tokens and user objects *)

(** X7. A matched record without an [id] gets the token
    ["mock-jwt-token-undefined"]. *)
Theorem login_token_of_missing_id
    (body : object) (s : store) (fields : object) :
  find_user body s = Normal (Some (JObj fields)) ->
  lookup "id" fields = None ->
  fst (login_handler body s) =
  Normal {| status := 200;
            payload := JObj [("token", JStr "mock-jwt-token-undefined");
                             ("user", JObj (remove_field "password" fields))] |}.
Proof.
  intros Hfind Hid. rewrite login_handler_cases. cbn [fst].
  rewrite Hfind. cbn [to_boolean].
  rewrite make_token_truthy by reflexivity.
  cbn [own_field]. rewrite Hid. reflexivity.
Qed.

(** X8. Records with different string [id]s get different tokens. *)
Theorem tokens_of_distinct_ids_differ (u1 u2 : json) (i1 i2 : string) :
  own_field u1 "id" = Some (JStr i1) ->
  own_field u2 "id" = Some (JStr i2) ->
  i1 <> i2 ->
  make_token u1 <> make_token u2.
Proof.
  intros H1 H2 Hne Heq. apply Hne.
  destruct (own_field_some_object _ _ _ H1) as [f1 ->].
  destruct (own_field_some_object _ _ _ H2) as [f2 ->].
  rewrite !make_token_truthy in Heq by reflexivity.
  rewrite H1, H2 in Heq. simpl in Heq. congruence.
Qed.

(** X9. A matched record that has no [password] field is sent back
    whole: the user object is the record, field for field and in
    order. *)
Theorem login_record_without_password_is_sent_whole
    (body : object) (s : store) (fields : object) (t : string) :
  find_user body s = Normal (Some (JObj fields)) ->
  lookup "password" fields = None ->
  to_string_val (lookup "id" fields) = Normal t ->
  fst (login_handler body s) =
  Normal {| status := 200;
            payload := JObj [("token", JStr ("mock-jwt-token-" ++ t));
                             ("user", JObj fields)] |}.
Proof.
  intros Hfind Hpw Ht. rewrite login_handler_cases. cbn [fst].
  rewrite Hfind. cbn [to_boolean].
  rewrite make_token_truthy by reflexivity.
  cbn [own_field]. rewrite Ht.
  unfold rest_without. cbn [own_enumerable].
  rewrite remove_field_absent by exact Hpw. reflexivity.
Qed.

(** ** Logins while the collection grows *)

(** X10. Entries in front of the array that the callback rejects do not
    change the outcome: the handler answers (or throws) as it does on the
    array without them. *)
Theorem login_skips_rejected_entries
    (body : object) (s s' : store) (before l : list json) :
  lookup "users" s = Some (JArr l) ->
  lookup "users" s' = Some (JArr (before ++ l)%list) ->
  (forall x, In x before -> callback body x = Normal false) ->
  fst (login_handler body s') = fst (login_handler body s).
Proof.
  intros Hl Hl' Hbefore. rewrite !login_handler_cases. cbn [fst].
  rewrite (find_user_on_array body s l Hl).
  rewrite (find_user_on_array body s' _ Hl').
  rewrite array_find_skip by exact Hbefore. reflexivity.
Qed.

(** X11. A login that is answered 200 is answered the same after any
    entries are appended to [users]. *)
Theorem login_success_survives_append
    (body : object) (s s' : store) (l after : list json) (r : response) :
  lookup "users" s = Some (JArr l) ->
  lookup "users" s' = Some (JArr (l ++ after)%list) ->
  fst (login_handler body s) = Normal r -> status r = 200 ->
  fst (login_handler body s') = Normal r.
Proof.
  intros Hl Hl' H H200.
  destruct (login_200_inv body s r H H200) as (u & t & Hfind & Hb & Ht & ->).
  rewrite login_handler_cases. cbn [fst].
  rewrite (find_user_on_array body s' _ Hl').
  rewrite (find_user_on_array body s l Hl) in Hfind.
  rewrite (array_find_found_app _ l after u Hfind), Hb.
  rewrite make_token_truthy by exact Hb. rewrite Ht. reflexivity.
Qed.

(** ** Requests outside the prefix *)




(** ** Two more edges of the success branch *)

(** X13. A matched record whose [id] is an object with a [toString] key
    cannot be turned into a token: the concatenation throws, and no answer
    is sent although the credentials matched. *)
Theorem login_throws_on_unprintable_id
    (body : object) (s : store) (fields idfields : object) :
  find_user body s = Normal (Some (JObj fields)) ->
  lookup "id" fields = Some (JObj idfields) ->
  has_key "toString" idfields = true ->
  login_handler body s =
  (Throw (TypeError "Cannot convert object to primitive value"), s).
Proof.
  intros Hfind Hid Hkey. rewrite login_handler_cases.
  rewrite Hfind. cbn [to_boolean].
  rewrite make_token_truthy by reflexivity.
  cbn [own_field]. rewrite Hid. cbn [to_string_val to_string].
  rewrite Hkey. reflexivity.
Qed.

(** X14. A body with neither [phone] nor [password] logs in as the first
    record that has neither field: when every entry before it carries a
    [phone] or a [password], that record's [id] is in the token and the
    record itself is the user object. *)
Theorem login_empty_credentials_match_bare_record
    (body : object) (s : store) (before after : list json)
    (fields : object) (t : string) :
  lookup "phone" body = None ->
  lookup "password" body = None ->
  lookup "users" s = Some (JArr (before ++ JObj fields :: after)%list) ->
  (forall x, In x before ->
     is_null x = false /\
     (own_field x "phone" <> None \/ own_field x "password" <> None)) ->
  lookup "phone" fields = None ->
  lookup "password" fields = None ->
  to_string_val (lookup "id" fields) = Normal t ->
  fst (login_handler body s) =
  Normal {| status := 200;
            payload := JObj [("token", JStr ("mock-jwt-token-" ++ t));
                             ("user", JObj fields)] |}.
Proof.
  intros Hp Hw Hl Hbefore Hfp Hfw Ht.
  assert (Hfind : find_user body s = Normal (Some (JObj fields))).
  { rewrite (find_user_on_array body s _ Hl). apply array_find_some.
    exists before, after. split; [reflexivity|]. unfold callback. rewrite Hp, Hw. split.
    - intros x Hin. destruct (Hbefore x Hin) as [Hnull Hhas].
      rewrite credentials_match_total by exact Hnull.
      destruct (own_field x "phone") as [xp|]; [destruct xp; reflexivity|].
      destruct (own_field x "password") as [xw|]; [destruct xw; reflexivity|].
      destruct Hhas as [H|H]; contradiction.
    - rewrite credentials_match_total by reflexivity.
      cbn [own_field]. rewrite Hfp, Hfw. reflexivity. }
  rewrite login_handler_cases. cbn [fst]. rewrite Hfind. cbn [to_boolean].
  rewrite make_token_truthy by reflexivity.
  cbn [own_field]. rewrite Ht.
  unfold rest_without. cbn [own_enumerable].
  rewrite remove_field_absent by exact Hfw. reflexivity.
Qed.

End Properties.

(** * The properties on the example data *)

Import Examples.

(** The specification's own example: the right password, then a wrong
    one. *)
Example spec_example_success :
  login_handler good_body db = (Normal good_answer, db).
Proof. reflexivity. Qed.

Example spec_example_failure :
  login_handler bad_body db = (Normal invalid_credentials, db).
Proof. reflexivity. Qed.

(** Conversions of an [id] that is not a string. *)
Example token_of_numeric_id :
  make_token user_b = Normal "mock-jwt-token-2".
Proof. reflexivity. Qed.

Example token_of_missing_id :
  make_token (JObj [("phone", JStr "555-0100")]) = Normal "mock-jwt-token-undefined".
Proof. reflexivity. Qed.

Example token_of_array_id :
  make_token (JObj [("id", JArr [JNum 3%Z; JNull; JStr "x"])]) = Normal "mock-jwt-token-3,,x".
Proof. reflexivity. Qed.

(** Route matching ignores case, the query string and a trailing slash. *)
Example login_route_variants :
  route_matches example_url_parse "/api/v1/auth/login" "/API/v1/Auth/Login/?next=home" = true /\
  route_matches example_url_parse "/api/v1/auth/login" "/api/v1/auth/login/extra" = false.
Proof. split; reflexivity. Qed.

(** A target with a fragment or in absolute form is parsed by
    [url.parse]; with the stand-in parser the absolute login URL is a
    login request and is answered by the handler, not rewritten. *)
Example absolute_login_is_login :
  fast_path (req_url absolute_login_request) = false /\
  is_login example_url_parse absolute_login_request = true /\
  server example_url_parse example_public list_router absolute_login_request db =
  (Normal (Json good_answer), db).
Proof. repeat split. Qed.

(** The home page is served by [express.static], before any route. *)
Example home_page_is_static :
  server example_url_parse example_public list_router home_page_request db =
  (Normal (Static "index.html"), db).
Proof. reflexivity. Qed.

(** ** C1 *)

(** C1 as stated fails: a record without a [password] field is matched by
    a body without one, and login answers 200 although no user record has
    a [password] field equal to anything in the body. *)
Lemma login_200_without_password :
  ~ login_iff_credentials db_no_password phone_only_body.
Proof.
  intros [[H200 _] _].
  destruct (H200 eq_refl) as (u & _ & p & w & _ & _ & _ & Hw).
  discriminate Hw.
Qed.

Lemma login_200_iff_string_credentials_witness :
  login_iff_credentials db good_body.
Proof.
  apply (login_200_iff_string_credentials good_body db [user_a] "555-0100" "pw1");
    reflexivity.
Defined.

(** ** C2 *)

Lemma login_user_is_record_without_password_witness :
  exists u user,
    In u (user_records db) /\
    find_user good_body db = Normal (Some u) /\
    own_field (payload good_answer) "user" = Some (JObj user) /\
    user = remove_field "password" (own_enumerable u) /\
    lookup "password" user = None /\
    forall k, k <> "password" -> lookup k user = lookup k (own_enumerable u).
Proof.
  apply (login_user_is_record_without_password good_body db good_answer);
    reflexivity.
Defined.

(** ** C3 *)

Lemma login_token_is_prefix_and_id_witness :
  (exists u t,
     find_user good_body db = Normal (Some u) /\
     to_string_val (own_field u "id") = Normal t /\
     (forall i, own_field u "id" = Some (JStr i) -> t = i) /\
     own_field (payload good_answer) "token" = Some (JStr ("mock-jwt-token-" ++ t))) /\
  (forall body' s',
     lookup "users" s' = lookup "users" db ->
     lookup "phone" body' = lookup "phone" good_body ->
     lookup "password" body' = lookup "password" good_body ->
     fst (login_handler body' s') = Normal good_answer).
Proof.
  apply (login_token_is_prefix_and_id good_body db good_answer); reflexivity.
Defined.

(** ** C4 *)

(** C4 as stated fails: no record has a [phone] field, so no record has
    the body's credentials, yet the record without [phone] is matched by
    the body without [phone] and the answer is 200. *)
Lemma login_200_although_no_record_matches :
  ~ no_match_is_rejected db_no_phone password_only_body.
Proof.
  intros H.
  assert (Hno : no_record_matches db_no_phone password_only_body).
  { intros (u & _ & p & w & _ & Hp & _). discriminate Hp. }
  specialize (H Hno). discriminate H.
Qed.

Lemma login_401_when_no_record_matches_witness :
  login_handler bad_body db =
  (Normal {| status := 401;
             payload := JObj [("message", JStr "Invalid credentials")] |}, db).
Proof.
  apply (login_401_when_no_record_matches bad_body db [user_a] "555-0100" "wrong");
    try reflexivity.
  intros (u & [<-|[]] & p & w & _ & _ & Hw & Hbw).
  cbn in Hw, Hbw. congruence.
Defined.

(** ** C5 *)

(** C5 as stated fails: a record with neither [phone] nor [password] is
    matched by the empty body, which is answered 200. *)
Lemma login_empty_body_accepted :
  ~ missing_field_rejected db_no_credentials empty_body.
Proof.
  intros H. destruct (H (or_introl eq_refl)) as [Hfind _].
  discriminate Hfind.
Qed.

Lemma login_missing_field_is_401_witness :
  find_user phone_only_body db = Normal None /\
  login_status phone_only_body db = Some 401.
Proof.
  apply (login_missing_field_is_401 phone_only_body db [user_a]).
  - reflexivity.
  - reflexivity.
  - right. reflexivity.
Defined.

(** ** C6 *)

(** C6 as stated fails: an [OPTIONS] request under the prefix is not a
    login request, yet cors answers it with 204 and the router is never
    asked. *)
Lemma options_under_prefix_answered_by_cors :
  ~ prefix_is_transparent example_url_parse example_public list_router
      options_users_request.
Proof.
  intros H. specialize (H "users" eq_refl eq_refl).
  apply (f_equal (fun h => fst (h db))) in H. discriminate H.
Qed.

Lemma prefix_rewrite_is_transparent_witness :
  server example_url_parse example_public list_router list_users_request =
  json_stage (list_router {| req_method := GET; req_url := "/users"; req_body := [] |}).
Proof.
  apply (prefix_rewrite_is_transparent example_url_parse example_public list_router
           list_users_request "users");
    reflexivity.
Defined.

(** ** C7 *)

Lemma login_request_leaves_store_witness :
  snd (server example_url_parse example_public list_router login_request db) = db.
Proof.
  apply (login_request_leaves_store example_url_parse example_public list_router
           login_request db).
  reflexivity.
Defined.

(** ** C8 *)

Lemma login_first_match_wins_witness :
  fst (login_handler good_body db_twins) =
  Normal {| status := 200;
            payload := JObj [("token", JStr "mock-jwt-token-1");
                             ("user", JObj [("id", JStr "1"); ("phone", JStr "555-0100");
                                            ("name", JStr "A")])] |}.
Proof.
  apply (login_first_match_wins good_body db_twins [] [user_b]
           [("id", JStr "1"); ("phone", JStr "555-0100");
            ("password", JStr "pw1"); ("name", JStr "A")] "1").
  - reflexivity.
  - intros x [].
  - reflexivity.
  - reflexivity.
Defined.

(** ** C9 *)

(** C9 as stated fails: [users] is an array, but reading [phone] off its
    [null] element throws. *)
Lemma login_throws_on_null_user :
  ~ never_throws_on_array db_null_user good_body.
Proof.
  intros H.
  destruct H as (r & Hr & _); [eexists; reflexivity|].
  discriminate Hr.
Qed.

Lemma login_answers_on_safe_users_witness :
  answers db good_body /\ ([user_a] = [] -> login_status good_body db = Some 401).
Proof.
  apply (login_answers_on_safe_users good_body db [user_a]); reflexivity.
Defined.

Example login_on_empty_users :
  login_handler good_body db_empty_users = (Normal invalid_credentials, db_empty_users).
Proof. reflexivity. Qed.

(** ** C10 *)

(** C10 as stated fails: [OPTIONS] is a method other than [POST], yet an
    [OPTIONS] request to the login URL is answered by cors with 204 and
    the router is never asked. *)
Lemma options_login_answered_by_cors :
  ~ non_post_login_goes_to_router example_url_parse example_public list_router
      options_login_request.
Proof.
  intros H. destruct H as [_ H]; [reflexivity | reflexivity |].
  apply (f_equal (fun h => fst (h db))) in H. discriminate H.
Qed.

Lemma login_route_is_post_only_witness :
  is_login example_url_parse get_login_request = false /\
  server example_url_parse example_public list_router get_login_request =
  json_stage (list_router {| req_method := GET; req_url := "/auth/login"; req_body := [] |}).
Proof.
  apply (login_route_is_post_only example_url_parse example_public list_router
           get_login_request).
  - reflexivity.
  - reflexivity.
  - reflexivity.
Defined.

(** * The further properties on the example data *)

(** ** X1 *)

Lemma login_throws_without_users_array_witness :
  exists msg, login_handler good_body db_users_object = (Throw (TypeError msg), db_users_object).
Proof.
  apply (login_throws_without_users_array good_body db_users_object).
  intros l. discriminate.
Defined.

Example login_without_users_key :
  login_handler good_body db_no_users =
  (Throw (TypeError "Cannot read properties of undefined (reading 'find')"), db_no_users).
Proof. reflexivity. Qed.

(** ** X2 *)

Lemma login_throws_on_null_before_match_witness :
  login_handler bad_body db_null_second =
  (Throw (TypeError "Cannot read properties of null (reading 'phone')"), db_null_second).
Proof.
  apply (login_throws_on_null_before_match bad_body db_null_second [user_a] []).
  - reflexivity.
  - intros x [<-|[]]. reflexivity.
Defined.

(** The same [null] is never reached when the record before it matches. *)
Example login_stops_before_null :
  login_handler good_body db_null_second = (Normal good_answer, db_null_second).
Proof. reflexivity. Qed.

(** ** X3 *)

Lemma login_answers_only_200_or_401_witness :
  good_answer = invalid_credentials \/
  exists u t,
    In u (user_records db) /\
    to_string_val (own_field u "id") = Normal t /\
    good_answer =
    {| status := 200;
       payload := JObj [("token", JStr ("mock-jwt-token-" ++ t));
                        ("user", JObj (rest_without "password" u))] |}.
Proof.
  apply (login_answers_only_200_or_401 good_body db good_answer).
  reflexivity.
Defined.

(** ** X4 *)

Lemma login_200_is_sound_witness :
  exists fields,
    In (JObj fields) (user_records db_twins) /\
    lookup "phone" fields = Some (JStr "555-0100") /\
    lookup "password" fields = Some (JStr "pw1") /\
    own_field (payload good_answer) "user" = Some (JObj (remove_field "password" fields)).
Proof.
  apply (login_200_is_sound good_body db_twins good_answer "555-0100" "pw1");
    reflexivity.
Defined.

(** ** X5 *)

Lemma login_rejects_reference_credentials_witness :
  login_handler injection_body db = (Normal invalid_credentials, db).
Proof.
  apply (login_rejects_reference_credentials injection_body db [user_a]
           (JObj [("$ne", JNull)])).
  - reflexivity.
  - reflexivity.
  - right. reflexivity.
  - reflexivity.
Defined.

(** ** X6 *)

Lemma login_falsy_match_is_401_witness :
  login_handler empty_body db_false_first = (Normal invalid_credentials, db_false_first).
Proof.
  apply (login_falsy_match_is_401 empty_body db_false_first []
           [JObj [("id", JStr "1"); ("name", JStr "A")]] (JBool false)).
  - reflexivity.
  - intros x [].
  - reflexivity.
  - reflexivity.
Defined.

(** ** X7 *)

Lemma login_token_of_missing_id_witness :
  fst (login_handler good_body db_no_id) =
  Normal {| status := 200;
            payload := JObj [("token", JStr "mock-jwt-token-undefined");
                             ("user", JObj [("phone", JStr "555-0100")])] |}.
Proof.
  apply (login_token_of_missing_id good_body db_no_id
           [("phone", JStr "555-0100"); ("password", JStr "pw1")]);
    reflexivity.
Defined.

(** ** X8 *)

Lemma tokens_of_distinct_ids_differ_witness :
  make_token user_a <> make_token user_c.
Proof.
  apply (tokens_of_distinct_ids_differ user_a user_c "1" "3").
  - reflexivity.
  - reflexivity.
  - discriminate.
Defined.

(** ** X9 *)

Lemma login_record_without_password_is_sent_whole_witness :
  fst (login_handler phone_only_body db_no_password) =
  Normal {| status := 200;
            payload := JObj [("token", JStr "mock-jwt-token-1");
                             ("user", JObj [("id", JStr "1"); ("phone", JStr "555-0100");
                                            ("name", JStr "A")])] |}.
Proof.
  apply (login_record_without_password_is_sent_whole phone_only_body db_no_password
           [("id", JStr "1"); ("phone", JStr "555-0100"); ("name", JStr "A")] "1");
    reflexivity.
Defined.

(** ** X10 *)

Lemma login_skips_rejected_entries_witness :
  fst (login_handler good_body db_c_first) = fst (login_handler good_body db).
Proof.
  apply (login_skips_rejected_entries good_body db db_c_first [user_c] [user_a]).
  - reflexivity.
  - reflexivity.
  - intros x [<-|[]]. reflexivity.
Defined.

(** ** X11 *)

Lemma login_success_survives_append_witness :
  fst (login_handler good_body db_twins) = Normal good_answer.
Proof.
  apply (login_success_survives_append good_body db db_twins [user_a] [user_b] good_answer);
    reflexivity.
Defined.

(** ** X12 *)


(** ** X13 *)

Lemma login_throws_on_unprintable_id_witness :
  login_handler good_body db_odd_id =
  (Throw (TypeError "Cannot convert object to primitive value"), db_odd_id).
Proof.
  apply (login_throws_on_unprintable_id good_body db_odd_id
           [("id", JObj [("toString", JStr "x")]); ("phone", JStr "555-0100");
            ("password", JStr "pw1")]
           [("toString", JStr "x")]);
    reflexivity.
Defined.

(** ** X14 *)

Lemma login_empty_credentials_match_bare_record_witness :
  fst (login_handler empty_body db_bare_second) =
  Normal {| status := 200;
            payload := JObj [("token", JStr "mock-jwt-token-9");
                             ("user", JObj [("id", JStr "9"); ("name", JStr "Z")])] |}.
Proof.
  apply (login_empty_credentials_match_bare_record empty_body db_bare_second
           [user_a] [user_c] [("id", JStr "9"); ("name", JStr "Z")] "9");
    try reflexivity.
  intros x [<-|[]]. split; [reflexivity|]. left. discriminate.
Defined.
